(** * pkg/data/events.go: change records, their description and application

    A shallow embedding of [Event], [getName], [Event.Output],
    [applyService], [applyRoute] and [Event.Apply], followed by the
    properties of the change-description and change-application
    components.

    Conventions.
    - A Go [string] or [[]byte] is a [string]; [int] is [Z].
    - A value held in an [interface{}] is a [value]; [reflect] is modelled
      on it as far as [getName] uses it.
    - A Go [error] is an [option err], [None] being [nil].
    - A function that can panic returns an [outcome].
    - The remote client ([apisix.Cluster]) is an interface: code that calls
      it is a [prog], a tree of calls, each continued on the reply.
    - [encoding/json], [gotextdiff] and [gotextdiff/myers] are libraries
      outside the repository: [Output] takes their functions from a class,
      [Libraries], and its properties hold for every instance. *)

From Stdlib Require Import String Ascii List ZArith Bool Lia DecimalString.
Import ListNotations.

Local Open Scope string_scope.

Set Implicit Arguments.
Set Warnings "-register-all".


(** ** Text *)

(** The two characters the source writes with escapes. *)
Definition nl : string := String "010"%char EmptyString.
Definition tab : string := String "009"%char EmptyString.
Definition dquote : string := String "034"%char EmptyString.

(** A text between double quotes. *)
Definition quote (s : string) : string := dquote ++ s ++ dquote.

(** Number of line feeds of a text: a text with none is a single line. *)
Fixpoint newlines (s : string) : nat :=
  match s with
  | EmptyString => 0
  | String c r => (if Ascii.eqb c "010"%char then 1 else 0) + newlines r
  end.

(** [fmt.Sprintf] for the formats of this file: every verb is [%s], and
    every operand a string (or of a type whose underlying type is string),
    which [%s] prints as it is.  A verb with no operand left prints
    [%!s(MISSING)]. *)
Fixpoint Sprintf (format : string) (args : list string) : string :=
  match format with
  | String "%"%char (String "s"%char rest) =>
      match args with
      | a :: args' => a ++ Sprintf rest args'
      | [] => "%!s(MISSING)" ++ Sprintf rest []
      end
  | String c rest => String c (Sprintf rest args)
  | EmptyString => EmptyString
  end.

(** ** Panics *)

Inductive outcome (A : Type) : Type :=
| Returns (a : A)
| Panics (msg : string).

Arguments Panics {A} msg.

Definition obind {A B} (o : outcome A) (f : A -> outcome B) : outcome B :=
  match o with
  | Returns a => f a
  | Panics m => Panics m
  end.

(** ** Values of type [interface{}] and reflection *)

(** What an [interface{}] can hold, as far as this file tells values
    apart.  A struct carries its type's name and its fields in declaration
    order; a pointer carries the name of the type it points to and is nil
    ([None]) or points to a value.  [VChan] stands for the values
    [encoding/json] has no encoding for.  As a struct field, [VNil] is a
    nil field of interface type. *)
Inductive value : Type :=
| VNil
| VBool (b : bool)
| VInt (n : Z)
| VString (s : string)
| VChan (elem : string)
| VStruct (ty : string) (fields : list (string * value))
| VPtr (elem : string) (target : option value).

(** The dynamic type, as [%T] prints it; the nil interface has none. *)
Definition typeOf (v : value) : option string :=
  match v with
  | VNil => None
  | VBool _ => Some "bool"
  | VInt _ => Some "int"
  | VString _ => Some "string"
  | VChan t => Some ("chan " ++ t)
  | VStruct ty _ => Some ty
  | VPtr t _ => Some ("*" ++ t)
  end.

Module reflect.

Inductive Kind : Type :=
| Invalid | Bool | Int | String | Chan | Struct | Ptr | Interface.

(** A [reflect.Value]: [None] is the zero Value. *)
Definition Value : Type := option value.

(** [reflect.ValueOf]: the zero Value for a nil interface. *)
Definition ValueOf (i : value) : Value :=
  match i with
  | VNil => None
  | _ => Some i
  end.

(** [Value.Kind]; [Some VNil] is reached only as a struct field. *)
Definition kind (v : Value) : Kind :=
  match v with
  | None => Invalid
  | Some VNil => Interface
  | Some (VBool _) => Bool
  | Some (VInt _) => Int
  | Some (VString _) => String
  | Some (VChan _) => Chan
  | Some (VStruct _ _) => Struct
  | Some (VPtr _ _) => Ptr
  end.

Definition is_Ptr (k : Kind) : bool :=
  match k with
  | Ptr => true
  | _ => false
  end.

(** The panic of a method called on a Value of the wrong kind. *)
Definition ValueError (method : string) (k : Kind) : string :=
  "reflect: call of " ++ method ++ " on " ++
  match k with
  | Invalid => "zero"
  | Bool => "bool"
  | Int => "int"
  | String => "string"
  | Chan => "chan"
  | Struct => "struct"
  | Ptr => "ptr"
  | Interface => "interface"
  end ++ " Value".

(** [Value.Elem] of a pointer: what it points to, the zero Value when
    the pointer is nil.  It panics on the kinds other than Interface and
    Ptr. *)
Definition Elem (v : Value) : outcome Value :=
  match v with
  | Some (VPtr _ target) => Returns target
  | Some VNil => Returns None
  | _ => Panics (ValueError "reflect.Value.Elem" (kind v))
  end.

Fixpoint lookup (name : string) (fields : list (string * value)) : Value :=
  match fields with
  | [] => None
  | (n, f) :: rest => if String.eqb n name then Some f else lookup name rest
  end.

(** [Value.FieldByName]: the field, or the zero Value when the struct
    has no field of that name; a panic when the Value is no struct.
    (Fields promoted from embedded structs are not modelled.) *)
Definition FieldByName (v : Value) (name : string) : outcome Value :=
  match v with
  | Some (VStruct _ fields) => Returns (lookup name fields)
  | _ => Panics (ValueError "reflect.Value.FieldByName" (kind v))
  end.

(** [Value.String]: the string itself for kind String, and for the
    others a text made of the type, never a panic. *)
Definition String_ (v : Value) : string :=
  match v with
  | None => "<invalid Value>"
  | Some (VString s) => s
  | Some f =>
      match typeOf f with
      | Some t => "<" ++ t ++ " Value>"
      | None => "<interface {} Value>"
      end
  end.

End reflect.

(** ** Errors *)

(** An error value: one made elsewhere (known by its message), or one
    made by [errors.Wrap] of github.com/pkg/errors, which keeps the cause
    beside the new message (the stack it also records is left out). *)
Inductive err : Type :=
| Err (msg : string)
| Wrapped (cause : err) (message : string).

Definition error : Type := option err.

Module errors.

(** [errors.Wrap]: nil for a nil error. *)
Definition Wrap (e : error) (message : string) : error :=
  match e with
  | None => None
  | Some c => Some (Wrapped c message)
  end.

(** [errors.Cause]: the innermost error. *)
Fixpoint Cause (e : err) : err :=
  match e with
  | Err _ => e
  | Wrapped c _ => Cause c
  end.

End errors.

(** ** The change record *)

Definition ResourceType : Type := string.

Definition ServiceResourceType : ResourceType := "service".
Definition RouteResourceType : ResourceType := "route".

Definition CreateOption : Z := 0.
Definition DeleteOption : Z := 1.
Definition UpdateOption : Z := 2.

(** [Event].  The field [ResourceType] is named by its JSON tag here, the
    type having taken the name. *)
Record Event : Type := {
  resource_type : ResourceType;
  Option : Z;
  OldValue : value;
  Value : value
}.

(** [getName]. *)
Definition getName (field : string) (value : value) : outcome string :=
  let v := reflect.ValueOf value in
  obind (if reflect.is_Ptr (reflect.kind v) then reflect.Elem v else Returns v)
    (fun v => obind (reflect.FieldByName v field)
      (fun f => Returns (reflect.String_ f))).

(** The name a resource value carries: the string field [Name] of a
    struct, held directly or behind a pointer.  A value with no such field
    carries none. *)
Definition NameField (v : value) : option string :=
  match v with
  | VStruct _ fields | VPtr _ (Some (VStruct _ fields)) =>
      match reflect.lookup "Name" fields with
      | Some (VString s) => Some s
      | _ => None
      end
  | _ => None
  end.

(** The fields [getName] can look a name up in: those of a struct, held
    directly or behind a pointer. *)
Definition fieldsOf (v : value) : option (list (string * value)) :=
  match v with
  | VStruct _ fields | VPtr _ (Some (VStruct _ fields)) => Some fields
  | _ => None
  end.

(** ** The text-diff library's types *)

Module span.

Definition URI : Type := string.

Record Point : Type := { Line : Z; Column : Z; Offset : Z }.

Record Span : Type := { uri : URI; Start : Point; Finish : Point }.

End span.

Module gotextdiff.

Record TextEdit : Type := { Span : span.Span; NewText : string }.

Inductive OpKind : Type := Delete | Insert | Equal.

Record Line : Type := { Kind : OpKind; Content : string }.

Record Hunk : Type := { FromLine : Z; ToLine : Z; Lines : list Line }.

Record Unified : Type := { From : string; To : string; Hunks : list Hunk }.

End gotextdiff.

(** ** Description *)

(** The library functions [Output] calls, which are no part of the
    repository: [Output] is defined, and its properties proved, for any
    such functions.  Each is a function of its arguments; for
    [json.MarshalIndent] this holds as far as the values encode themselves
    in a fixed way (struct fields are written in declaration order, map
    keys sorted). *)
Class Libraries : Type := {
  (** [json.MarshalIndent value prefix indent] *)
  MarshalIndent : value -> string -> string -> string * error;
  (** [span.URIFromPath path] *)
  URIFromPath : string -> span.URI;
  (** [myers.ComputeEdits uri before after] *)
  ComputeEdits : span.URI -> string -> string -> list gotextdiff.TextEdit;
  (** [gotextdiff.ToUnified from to content edits] *)
  ToUnified :
    string -> string -> string -> list gotextdiff.TextEdit -> gotextdiff.Unified;
  (** [fmt.Sprint] of a [gotextdiff.Unified], which formats itself *)
  Sprint : gotextdiff.Unified -> string
}.

(** [Event.Output].  The switch is on an [int]: a value that is none of
    the three constants leaves [output] empty. *)
Definition Output `{Libraries} (e : Event) : outcome (string * error) :=
  if Z.eqb e.(Option) CreateOption then
    obind (getName "Name" e.(Value)) (fun name =>
    Returns (Sprintf ("creating %s: " ++ dquote ++ "%s" ++ dquote)
               [e.(resource_type); name], None))
  else if Z.eqb e.(Option) DeleteOption then
    obind (getName "Name" e.(OldValue)) (fun name =>
    Returns (Sprintf ("deleting %s: " ++ dquote ++ "%s" ++ dquote)
               [e.(resource_type); name], None))
  else if Z.eqb e.(Option) UpdateOption then
    let (remote, err) := MarshalIndent e.(OldValue) "" tab in
    match err with
    | Some _ => Returns ("", err)
    | None =>
        let remote := remote ++ nl in
        let (local, err) := MarshalIndent e.(Value) "" tab in
        match err with
        | Some _ => Returns ("", err)
        | None =>
            let local := local ++ nl in
            let edits := ComputeEdits (URIFromPath "remote") remote local in
            let diff := Sprint (ToUnified "remote" "local" remote edits) in
            obind (getName "Name" e.(Value)) (fun name =>
            Returns (Sprintf ("updating %s: " ++ dquote ++ "%s" ++ dquote ++ nl ++ "%s")
                       [e.(resource_type); name; diff], None))
        end
    end
  else Returns ("", None).

(** ** Application *)

(** The two sub-clients of an [apisix.Cluster], reached by its methods
    [Service()] and [Route()]. *)
Inductive SubClient : Type := Service | Route.

(** A call of a sub-client's method (the [context.Context] argument is
    always [context.Background()] and is left out). *)
Inductive Call : Type :=
| Create (c : SubClient) (obj : value)
| Delete (c : SubClient) (name : string)
| Update (c : SubClient) (obj : value).

(** What a call gives back: [Create] and [Update] an object and an error,
    [Delete] an error. *)
Definition Reply (c : Call) : Type :=
  match c with
  | Delete _ _ => error
  | Create _ _ | Update _ _ => (value * error)%type
  end.

(** Code that calls the cluster: it returns, panics, or makes a call and
    goes on with the reply. *)
Inductive prog (A : Type) : Type :=
| Ret (a : A)
| Panic (msg : string)
| Do (c : Call) (k : Reply c -> prog A).

Arguments Panic {A} msg.

Fixpoint bind {A B} (p : prog A) (f : A -> prog B) : prog B :=
  match p with
  | Ret a => f a
  | Panic m => Panic m
  | Do c k => Do c (fun r => bind (k r) f)
  end.

Definition call (c : Call) : prog (Reply c) := Do c (fun r => Ret r).

Definition lift {A} (o : outcome A) : prog A :=
  match o with
  | Returns a => Ret a
  | Panics m => Panic m
  end.

Declare Scope prog_scope.
Delimit Scope prog_scope with prog.
Notation "x <- p ;; q" := (bind p (fun x => q))
  (at level 61, p at next level, right associativity) : prog_scope.

(** The type assertion [value.(T)], [T] a concrete type: the value itself
    when its dynamic type is [T], a panic otherwise (also for the nil
    interface). *)
Definition assertType (T : string) (v : value) : prog value :=
  match typeOf v with
  | Some t =>
      if String.eqb t T then Ret v
      else Panic ("interface conversion: interface {} is " ++ t ++ ", not " ++ T)
  | None => Panic ("interface conversion: interface {} is nil, not " ++ T)
  end.

(** [applyService].  The Update case returns from inside the switch. *)
Definition applyService (option : Z) (value : value) : prog error :=
  let wrap (err : error) := Ret (errors.Wrap err "failed to apply service") in
  (if Z.eqb option CreateOption then
     obj <- assertType "*types.Service" value ;;
     r <- call (Create Service obj) ;;
     wrap (snd r)
   else if Z.eqb option DeleteOption then
     name <- lift (getName "Name" value) ;;
     err <- call (Delete Service name) ;;
     wrap err
   else if Z.eqb option UpdateOption then
     obj <- assertType "*types.Service" value ;;
     r <- call (Update Service obj) ;;
     Ret (snd r)
   else wrap None)%prog.

(** [applyRoute]. *)
Definition applyRoute (option : Z) (value : value) : prog error :=
  let wrap (err : error) := Ret (errors.Wrap err "failed to apply route") in
  (if Z.eqb option CreateOption then
     obj <- assertType "*types.Route" value ;;
     r <- call (Create Route obj) ;;
     wrap (snd r)
   else if Z.eqb option DeleteOption then
     name <- lift (getName "Name" value) ;;
     err <- call (Delete Route name) ;;
     wrap err
   else if Z.eqb option UpdateOption then
     obj <- assertType "*types.Route" value ;;
     r <- call (Update Route obj) ;;
     wrap (snd r)
   else wrap None)%prog.

(** [Event.Apply]; the cluster is the one the program is run against.
    [ServiceResourceType] and [RouteResourceType] are package variables
    that nothing in the file assigns: the switch compares with their
    initial values. *)
Definition Apply (e : Event) : prog error :=
  if String.eqb e.(resource_type) ServiceResourceType then
    applyService e.(Option) e.(Value)
  else if String.eqb e.(resource_type) RouteResourceType then
    applyRoute e.(Option) e.(Value)
  else Ret None.

(** The error of a reply. *)
Definition replyError (c : Call) : Reply c -> error :=
  match c with
  | Delete _ _ => fun r => r
  | Create _ _ | Update _ _ => fun r => snd r
  end.

(** One call, whose error is returned wrapped in [message]. *)
Definition wrappedCall (c : Call) (message : string) : prog error :=
  Do c (fun r => Ret (errors.Wrap (replyError c r) message)).

(** One call, whose error is returned as it is. *)
Definition bareCall (c : Call) : prog error :=
  Do c (fun r => Ret (replyError c r)).

(** The shapes a handler's program can take. *)
Inductive shape (message : string) : prog error -> Prop :=
| shape_panic (msg : string) : shape message (Panic msg)
| shape_nil : shape message (Ret None)
| shape_wrapped (c : Call) : shape message (wrappedCall c message).

(** The sub-client [Apply] hands a record of a kind to, if any; the type
    its handler asserts of a value to create or update; the message it
    wraps errors in. *)
Definition subClientOf (kind : ResourceType) : option SubClient :=
  if String.eqb kind ServiceResourceType then Some Service
  else if String.eqb kind RouteResourceType then Some Route
  else None.

Definition pointerType (c : SubClient) : string :=
  match c with
  | Service => "*types.Service"
  | Route => "*types.Route"
  end.

Definition failedToApply (c : SubClient) : string :=
  match c with
  | Service => "failed to apply service"
  | Route => "failed to apply route"
  end.

(** ** Running against a cluster *)

(** A cluster answers every call from its state [W], which the call may
    change. *)
Definition Cluster (W : Type) : Type := forall c : Call, W -> Reply c * W.

(** The result of a run, the cluster's state after it, and the calls made,
    in order. *)
Fixpoint run {W A} (cluster : Cluster W) (p : prog A) (w : W)
  : outcome A * W * list Call :=
  match p with
  | Ret a => (Returns a, w, [])
  | Panic m => (Panics m, w, [])
  | Do c k =>
      let (r, w') := cluster c w in
      let '(res, w'', calls) := run cluster (k r) w' in
      (res, w'', c :: calls)
  end.

(** ** An executable instance of the libraries and of a cluster

    Small functions in the manner of the Go libraries, with which [Output]
    and [Apply] run on concrete records.  The properties below are proved
    for every instance of [Libraries] and every cluster; this one serves
    where a property is shown at a concrete record. *)

Module Sample.

(** A cluster with no state of its own that accepts every call. *)
Definition accepting : Cluster unit :=
  fun c w =>
    match c as c' return Reply c' * unit with
    | Create _ obj => ((obj, None), w)
    | Delete _ _ => (None, w)
    | Update _ obj => ((obj, None), w)
    end.

(** A cluster that refuses every call with the error [e]. *)
Definition refusing (e : err) : Cluster unit :=
  fun c w =>
    match c as c' return Reply c' * unit with
    | Create _ _ => ((VNil, Some e), w)
    | Delete _ _ => (Some e, w)
    | Update _ _ => ((VNil, Some e), w)
    end.

(** Records to run on. *)
Definition service (id name : string) : value :=
  VPtr "types.Service"
    (Some (VStruct "types.Service" [("ID", VString id); ("Name", VString name)])).

Definition route (id name upstream : string) : value :=
  VPtr "types.Route"
    (Some (VStruct "types.Route"
       [("ID", VString id); ("Name", VString name); ("UpstreamID", VString upstream)])).

(** A service to delete, described by its old value alone. *)
Definition deleteOld : Event :=
  {| resource_type := ServiceResourceType; Option := DeleteOption;
     OldValue := service "1" "svc-a"; Value := VNil |}.

(** A Delete record that carries two values, of different names. *)
Definition deleteBoth : Event :=
  {| resource_type := ServiceResourceType; Option := DeleteOption;
     OldValue := service "1" "svc-a"; Value := service "2" "svc-b" |}.

Definition createService : Event :=
  {| resource_type := ServiceResourceType; Option := CreateOption;
     OldValue := VNil; Value := service "1" "svc-a" |}.

Definition updateService : Event :=
  {| resource_type := ServiceResourceType; Option := UpdateOption;
     OldValue := service "1" "svc-a"; Value := service "1" "svc-b" |}.

Definition updateRoute : Event :=
  {| resource_type := RouteResourceType; Option := UpdateOption;
     OldValue := route "1" "r1" "1"; Value := route "1" "r1" "2" |}.

Definition unchangedRoute : Event :=
  {| resource_type := RouteResourceType; Option := UpdateOption;
     OldValue := route "1" "r1" "1"; Value := route "1" "r1" "1" |}.

(** An Update whose old value has no JSON encoding. *)
Definition updateChan : Event :=
  {| resource_type := RouteResourceType; Option := UpdateOption;
     OldValue := VChan "int"; Value := route "1" "r1" "1" |}.

(** A record of a kind the file does not know, and one of an option it
    does not know. *)
Definition createUpstream : Event :=
  {| resource_type := "upstream"; Option := CreateOption;
     OldValue := VNil; Value := service "1" "svc-a" |}.

Definition otherOption : Event :=
  {| resource_type := ServiceResourceType; Option := 7;
     OldValue := service "1" "svc-a"; Value := service "1" "svc-a" |}.

(** A route record that carries a service. *)
Definition mismatched : Event :=
  {| resource_type := RouteResourceType; Option := CreateOption;
     OldValue := VNil; Value := service "1" "svc-a" |}.

(** A resource with no field Name, and a record to create it. *)
Definition unnamed : value :=
  VPtr "types.Upstream" (Some (VStruct "types.Upstream" [("ID", VString "1")])).

Definition createUnnamed : Event :=
  {| resource_type := "upstream"; Option := CreateOption;
     OldValue := VNil; Value := unnamed |}.

(** A service whose name holds a line feed. *)
Definition createTwoLines : Event :=
  {| resource_type := ServiceResourceType; Option := CreateOption;
     OldValue := VNil; Value := service "1" ("a" ++ nl ++ "b") |}.

(** A service to create, with no value. *)
Definition createNil : Event :=
  {| resource_type := ServiceResourceType; Option := CreateOption;
     OldValue := VNil; Value := VNil |}.

Import gotextdiff.

Definition decimal (n : Z) : string := NilZero.string_of_int (Z.to_int n).

(** A string as a JSON string: quotes, backslashes and line feeds
    escaped. *)
Fixpoint quoted (s : string) : string :=
  match s with
  | EmptyString => EmptyString
  | String c r =>
      (if Ascii.eqb c "034"%char then "\" ++ dquote
       else if Ascii.eqb c "\"%char then "\\"
       else if Ascii.eqb c "010"%char then "\n"
       else String c EmptyString) ++ quoted r
  end.

(** The indented JSON text of a value at nesting [depth] (the
    indentation already written before its first line), or the message
    of the error for a value with no encoding. *)
Fixpoint encode (prefix indent depth : string) (v : value) : string + string :=
  match v with
  | VNil => inl "null"
  | VBool b => inl (if b then "true" else "false")
  | VInt n => inl (decimal n)
  | VString s => inl (dquote ++ quoted s ++ dquote)
  | VChan t => inr ("json: unsupported type: chan " ++ t)
  | VPtr _ None => inl "null"
  | VPtr _ (Some t) => encode prefix indent depth t
  | VStruct _ [] => inl "{}"
  | VStruct _ fields =>
      let inner := depth ++ indent in
      let members :=
        (fix members (first : bool) (fs : list (string * value)) : string + string :=
           match fs with
           | [] => inl EmptyString
           | (k, f) :: rest =>
               match encode prefix indent inner f, members false rest with
               | inl t, inl ts =>
                   inl ((if first then "" else ",") ++ nl ++ prefix ++ inner
                        ++ dquote ++ k ++ dquote ++ ": " ++ t ++ ts)
               | inr e, _ => inr e
               | _, inr e => inr e
               end
           end) true fields in
      match members with
      | inl ms => inl ("{" ++ ms ++ nl ++ prefix ++ depth ++ "}")
      | inr e => inr e
      end
  end.

Definition marshalIndent (v : value) (prefix indent : string) : string * error :=
  match encode prefix indent "" v with
  | inl text => (text, None)
  | inr msg => ("", Some (Err msg))
  end.

(** The lines of a text, each with its line feed. *)
Fixpoint splitLinesFrom (cur : string) (s : string) : list string :=
  match s with
  | EmptyString => if String.eqb cur "" then [] else [cur]
  | String c r =>
      if Ascii.eqb c "010"%char
      then (cur ++ nl) :: splitLinesFrom "" r
      else splitLinesFrom (cur ++ String c EmptyString) r
  end.

Definition splitLines (s : string) : list string := splitLinesFrom "" s.

(** The number of leading lines two texts share, and what follows them
    in each. *)
Fixpoint dropCommon (a b : list string) : nat * list string * list string :=
  match a, b with
  | x :: a', y :: b' =>
      if String.eqb x y
      then let '(n, ra, rb) := dropCommon a' b' in (S n, ra, rb)
      else (0, a, b)
  | _, _ => (0, a, b)
  end.

Definition point (line : nat) : span.Point :=
  {| span.Line := Z.of_nat line + 1; span.Column := 1; span.Offset := 0 |}.

(** A line diff: the shared first and last lines are kept, the lines
    between them are deleted and the new ones inserted. *)
Definition computeEdits (uri : span.URI) (before after : string) : list TextEdit :=
  let '(n, ra, rb) := dropCommon (splitLines before) (splitLines after) in
  let '(_, da, ia) := dropCommon (rev ra) (rev rb) in
  let deleted := rev da in
  let inserted := rev ia in
  let stop := n + length deleted in
  ((match deleted with
    | [] => []
    | _ => [ {| Span := {| span.uri := uri; span.Start := point n; span.Finish := point stop |};
                NewText := "" |} ]
    end) ++
   (match inserted with
    | [] => []
    | _ => [ {| Span := {| span.uri := uri; span.Start := point stop; span.Finish := point stop |};
                NewText := String.concat "" inserted |} ]
    end))%list.

(** Lines of context around a change, and the distance under which two
    changes share a hunk. *)
Definition edge : nat := 3.
Definition gap : nat := edge * 2.

(** The unchanged lines [start..stop) of the text, as far as it has
    them. *)
Definition equalLines (lines : list string) (start stop : nat) : list Line :=
  map (fun l => {| Kind := Equal; Content := l |})
    (firstn (stop - start) (skipn start lines)).

(** The state of the walk over the edits: the hunks closed so far, the
    open hunk, the line of the old text reached and the line of the new
    text reached. *)
Record walk : Type := {
  closed : list Hunk;
  open : option Hunk;
  last : nat;
  toLine : nat
}.

Definition extend (h : Hunk) (ls : list Line) : Hunk :=
  {| FromLine := h.(FromLine); ToLine := h.(ToLine); Lines := (h.(Lines) ++ ls)%list |}.

Definition step (lines : list string) (w : walk) (e : TextEdit) : walk :=
  let start := Z.to_nat (e.(Span).(span.Start).(span.Line) - 1) in
  let stop := Z.to_nat (e.(Span).(span.Finish).(span.Line) - 1) in
  let deleted :=
    map (fun l => {| Kind := Delete; Content := l |})
      (firstn (stop - start) (skipn start lines)) in
  let inserted :=
    map (fun l => {| Kind := Insert; Content := l |}) (splitLines e.(NewText)) in
  let '(done, h, reached) :=
    match w.(open) with
    | Some h =>
        if Nat.eqb start w.(last) then (w.(closed), h, w.(toLine))
        else if Nat.leb start (w.(last) + gap)
        then (w.(closed), extend h (equalLines lines w.(last) start),
              w.(toLine) + (start - w.(last)))
        else
          let before := equalLines lines (start - edge) start in
          ((w.(closed) ++ [extend h (equalLines lines w.(last) (w.(last) + edge))])%list,
           {| FromLine := Z.of_nat (start - length before) + 1;
              ToLine := Z.of_nat (w.(toLine) + (start - w.(last)) - length before) + 1;
              Lines := before |},
           w.(toLine) + (start - w.(last)))
    | None =>
        let before := equalLines lines (start - edge) start in
        (w.(closed),
         {| FromLine := Z.of_nat (start - length before) + 1;
            ToLine := Z.of_nat (w.(toLine) + (start - w.(last)) - length before) + 1;
            Lines := before |},
         w.(toLine) + (start - w.(last)))
    end in
  {| closed := done;
     open := Some (extend h (deleted ++ inserted)%list);
     last := stop;
     toLine := reached + length inserted |}.

Definition toUnified (from to content : string) (edits : list TextEdit) : Unified :=
  let lines := splitLines content in
  let w := fold_left (step lines)
             edits {| closed := []; open := None; last := 0; toLine := 0 |} in
  {| From := from; To := to;
     Hunks :=
       match w.(open) with
       | Some h => (w.(closed) ++ [extend h (equalLines lines w.(last) (w.(last) + edge))])%list
       | None => w.(closed)
       end |}.

Definition endsWithNl (s : string) : bool :=
  match rev (list_ascii_of_string s) with
  | c :: _ => Ascii.eqb c "010"%char
  | [] => false
  end.

Definition formatLine (l : Line) : string :=
  (match l.(Kind) with
   | Delete => "-"
   | Insert => "+"
   | Equal => " "
   end) ++ l.(Content)
  ++ (if endsWithNl l.(Content) then "" else nl ++ "\ No newline at end of file" ++ nl).

Definition counted (sign : string) (line : Z) (count : nat) : string :=
  if Nat.ltb 1 count
  then " " ++ sign ++ decimal line ++ "," ++ decimal (Z.of_nat count)
  else " " ++ sign ++ decimal line.

Definition formatHunk (h : Hunk) : string :=
  let fromCount :=
    length (filter (fun l => match l.(Kind) with Insert => false | _ => true end) h.(Lines)) in
  let toCount :=
    length (filter (fun l => match l.(Kind) with Delete => false | _ => true end) h.(Lines)) in
  "@@" ++ counted "-" h.(FromLine) fromCount ++ counted "+" h.(ToLine) toCount
  ++ " @@" ++ nl ++ String.concat "" (map formatLine h.(Lines)).

(** The unified text: nothing at all for a diff with no hunk. *)
Definition sprint (u : Unified) : string :=
  match u.(Hunks) with
  | [] => ""
  | hunks =>
      "--- " ++ u.(From) ++ nl ++ "+++ " ++ u.(To) ++ nl
      ++ String.concat "" (map formatHunk hunks)
  end.

#[export] Instance libraries : Libraries := {
  MarshalIndent := marshalIndent;
  URIFromPath := fun path => "file:///" ++ path;
  ComputeEdits := computeEdits;
  ToUnified := toUnified;
  Sprint := sprint
}.

End Sample.

(** ** The text-diff library

    Modelled from the spec: the functions [myers.ComputeEdits],
    [gotextdiff.ToUnified] and the formatting of a [gotextdiff.Unified]
    belong to github.com/hexops/gotextdiff, which is not among the
    sources; the spec names them as a line-based diff by Myers' algorithm
    rendered as a unified diff.  The definitions below follow that
    library's functions step by step.  Its slices are lists, read and
    written at an index; the indices the algorithm uses are within bounds,
    where Go would panic otherwise.  What the library does in parts this
    file does not follow is a parameter: the making of a span from two
    points, and the hunks [ToUnified] builds from edits when there are
    some. *)

Module myers.

Record operation : Type := {
  Kind : gotextdiff.OpKind;
  Content : list string;
  I1 : Z;
  I2 : Z;
  J1 : Z
}.

(** [V[i]] and [V[i] = x]. *)
Definition at_ (V : list Z) (i : Z) : Z := nth (Z.to_nat i) V 0%Z.

Fixpoint store {A : Type} (l : list A) (i : nat) (x : A) : list A :=
  match l, i with
  | [], _ => []
  | _ :: rest, O => x :: rest
  | y :: rest, S i' => y :: store rest i' x
  end.

Definition put {A : Type} (l : list A) (i : Z) (x : A) : list A :=
  store l (Z.to_nat i) x.

(** Modelled from the spec: [splitLines], the lines of a text, each with
    its line feed. *)
Definition splitLines (text : string) : list string := Sample.splitLines text.

(** The test the search and the way back share: from diagonal [k] at
    depth [d], go down rather than right. *)
Definition down (V : list Z) (offset d k : Z) : bool :=
  Z.eqb k (- d)
  || (negb (Z.eqb k d) && Z.ltb (at_ V (k - 1 + offset)) (at_ V (k + 1 + offset))).

(** Diagonal moves while the lines are equal. *)
Fixpoint slide (a b : list string) (fuel : nat) (x y : Z) : Z * Z :=
  match fuel with
  | O => (x, y)
  | S fuel' =>
      if Z.ltb x (Z.of_nat (length a)) && Z.ltb y (Z.of_nat (length b))
         && String.eqb (nth (Z.to_nat x) a "") (nth (Z.to_nat y) b "")
      then slide a b fuel' (x + 1) (y + 1)
      else (x, y)
  end.

(** The loop over [k], from [-d] to [d] by steps of two, of
    [shortestEditSequence]: the array after it, and whether the end of
    both texts was reached. *)
Fixpoint diagonals (a b : list string) (offset d : Z) (fuel : nat) (k : Z)
    (V : list Z) : list Z * bool :=
  match fuel with
  | O => (V, false)
  | S fuel' =>
      if Z.leb k d then
        let x := if down V offset d k
                 then at_ V (k + 1 + offset)
                 else (at_ V (k - 1 + offset) + 1)%Z in
        let y := (x - k)%Z in
        let '(x, y) := slide a b (length a) x y in
        let V := put V (k + offset) x in
        if Z.eqb x (Z.of_nat (length a)) && Z.eqb y (Z.of_nat (length b))
        then (V, true)
        else diagonals a b offset d fuel' (k + 2) V
      else (V, false)
  end.

(** The loop over [d] of [shortestEditSequence]. *)
Fixpoint depths (a b : list string) (offset : Z) (fuel : nat) (d : Z)
    (V : list Z) (trace : list (list Z)) : list (list Z) * Z :=
  match fuel with
  | O => ([], 0%Z)
  | S fuel' =>
      let '(V, reached) := diagonals a b offset d (S (Z.to_nat d)) (- d) V in
      let trace := put trace d V in
      if reached then (trace, offset)
      else depths a b offset fuel' (d + 1) V trace
  end.

(** Modelled from the spec: [shortestEditSequence]. *)
Definition shortestEditSequence (a b : list string) : list (list Z) * Z :=
  let M := length a in
  let N := length b in
  let V := repeat 0%Z (2 * (N + M) + 1) in
  let offset := Z.of_nat (N + M) in
  let trace := repeat [] (N + M + 1) in
  depths a b offset (N + M + 1) 0 V trace.

(** The loop of [backtrack], [d] going down. *)
Fixpoint back (trace : list (list Z)) (offset : Z) (fuel : nat) (x y d : Z)
    (snakes : list (list Z)) : Z * Z * Z * list (list Z) :=
  match fuel with
  | O => (x, y, d, snakes)
  | S fuel' =>
      if Z.ltb 0 x && Z.ltb 0 y && Z.ltb 0 d then
        let V := nth (Z.to_nat d) trace [] in
        match V with
        | [] => back trace offset fuel' x y (d - 1) snakes
        | _ =>
            let snakes := put snakes d [x; y] in
            let k := (x - y)%Z in
            let kPrev := if down V offset d k then (k + 1)%Z else (k - 1)%Z in
            let x := at_ V (kPrev + offset) in
            let y := (x - kPrev)%Z in
            back trace offset fuel' x y (d - 1) snakes
        end
      else (x, y, d, snakes)
  end.

(** Modelled from the spec: [backtrack]. *)
Definition backtrack (trace : list (list Z)) (x y offset : Z) : list (list Z) :=
  let snakes := repeat [] (length trace) in
  let d := (Z.of_nat (length trace) - 1)%Z in
  let '(x, y, d, snakes) := back trace offset (length trace) x y d snakes in
  if Z.ltb x 0 || Z.ltb y 0 then snakes else put snakes d [x; y].

(** [add] of [operations]. *)
Definition add (b : list string) (solution : list operation)
    (op : option operation) (i2 j2 : Z) : list operation :=
  match op with
  | None => solution
  | Some op =>
      (solution ++
       [ {| Kind := op.(Kind);
            Content :=
              match op.(Kind) with
              | gotextdiff.Insert =>
                  firstn (Z.to_nat (j2 - op.(J1))) (skipn (Z.to_nat op.(J1)) b)
              | _ => op.(Content)
              end;
            I1 := op.(I1); I2 := i2; J1 := op.(J1) |} ])%list
  end.

Definition started (kind : gotextdiff.OpKind) (op : option operation) (x y : Z)
  : option operation :=
  match op with
  | None => Some {| Kind := kind; Content := []; I1 := x; I2 := 0; J1 := y |}
  | Some _ => op
  end.

(** The deletions of a snake: [x] grows while the snake's diagonal is
    beyond [x - y], at most to [M]. *)
Fixpoint deletions (M diagonal : Z) (fuel : nat) (x y : Z) (op : option operation)
  : Z * option operation :=
  match fuel with
  | O => (x, op)
  | S fuel' =>
      if Z.gtb diagonal (x - y) then
        let op := started gotextdiff.Delete op x y in
        let x := (x + 1)%Z in
        if Z.eqb x M then (x, op) else deletions M diagonal fuel' x y op
      else (x, op)
  end.

(** The insertions of a snake: [y] grows while the snake's diagonal is
    short of [x - y]. *)
Fixpoint insertions (diagonal : Z) (fuel : nat) (x y : Z) (op : option operation)
  : Z * option operation :=
  match fuel with
  | O => (y, op)
  | S fuel' =>
      if Z.ltb diagonal (x - y) then
        let op := started gotextdiff.Insert op x y in
        insertions diagonal fuel' x (y + 1) op
      else (y, op)
  end.

(** The loop over the snakes of [operations]. *)
Fixpoint follow (a b : list string) (snakes : list (list Z)) (x y : Z)
    (solution : list operation) : list operation :=
  match snakes with
  | [] => solution
  | snake :: rest =>
      match snake with
      | s0 :: s1 :: _ =>
          let diagonal := (s0 - s1)%Z in
          let '(x, op) :=
            deletions (Z.of_nat (length a)) diagonal
              (Z.to_nat (diagonal - (x - y))) x y None in
          let solution := add b solution op x y in
          let '(y, op) :=
            insertions diagonal (Z.to_nat ((x - y) - diagonal)) x y None in
          let solution := add b solution op x y in
          let n := Z.max 0 (s0 - x) in
          let x := (x + n)%Z in
          let y := (y + n)%Z in
          if Z.leb (Z.of_nat (length a)) x && Z.leb (Z.of_nat (length b)) y
          then solution
          else follow a b rest x y solution
      | _ => follow a b rest x y solution
      end
  end.

(** Modelled from the spec: [operations], the deletions and insertions
    that turn the lines [a] into the lines [b], equal lines left out. *)
Definition operations (a b : list string) : list operation :=
  match a, b with
  | [], [] => []
  | _, _ =>
      let '(trace, offset) := shortestEditSequence a b in
      let snakes :=
        backtrack trace (Z.of_nat (length a)) (Z.of_nat (length b)) offset in
      follow a b snakes 0 0 []
  end.

Section Edits.

(** [span.New uri (span.NewPoint line 1 0) (span.NewPoint line' 1 0)]. *)
Variable lineSpan : span.URI -> Z -> Z -> span.Span.

(** Modelled from the spec: [myers.ComputeEdits], one edit for each
    deletion and for each insertion that is not empty. *)
Definition ComputeEdits (uri : span.URI) (before after : string)
  : list gotextdiff.TextEdit :=
  flat_map
    (fun op =>
       let s := lineSpan uri (op.(I1) + 1) (op.(I2) + 1) in
       match op.(Kind) with
       | gotextdiff.Delete => [ {| gotextdiff.Span := s; gotextdiff.NewText := "" |} ]
       | gotextdiff.Insert =>
           let content := String.concat "" op.(Content) in
           if String.eqb content "" then []
           else [ {| gotextdiff.Span := s; gotextdiff.NewText := content |} ]
       | gotextdiff.Equal => []
       end)
    (operations (splitLines before) (splitLines after)).

End Edits.

End myers.

Module unified.

Import gotextdiff.

Section Hunks.

(** The hunks [ToUnified] builds from the content and edits that are not
    empty. *)
Variable hunksOf : string -> string -> list TextEdit -> list Hunk.

(** Modelled from the spec: [gotextdiff.ToUnified], which returns the two
    labels with no hunk when there is no edit. *)
Definition ToUnified (from to content : string) (edits : list TextEdit) : Unified :=
  match edits with
  | [] => {| From := from; To := to; Hunks := [] |}
  | _ => {| From := from; To := to; Hunks := hunksOf from content edits |}
  end.

End Hunks.

Definition decimal (n : Z) : string := NilZero.string_of_int (Z.to_int n).

Definition endsWithNl (s : string) : bool :=
  match rev (list_ascii_of_string s) with
  | c :: _ => Ascii.eqb c "010"%char
  | [] => false
  end.

Definition formatLine (l : Line) : string :=
  (match l.(Kind) with
   | Delete => "-"
   | Insert => "+"
   | Equal => " "
   end) ++ l.(Content)
  ++ (if endsWithNl l.(Content) then "" else nl ++ "\ No newline at end of file" ++ nl).

Definition range (sign : string) (line : Z) (count : nat) : string :=
  if Nat.ltb 1 count
  then " " ++ sign ++ decimal line ++ "," ++ decimal (Z.of_nat count)
  else " " ++ sign ++ decimal line.

Definition formatHunk (h : Hunk) : string :=
  let fromCount :=
    length (filter (fun l => match l.(Kind) with Insert => false | _ => true end) h.(Lines)) in
  let toCount :=
    length (filter (fun l => match l.(Kind) with Delete => false | _ => true end) h.(Lines)) in
  "@@" ++ range "-" h.(FromLine) fromCount ++ range "+" h.(ToLine) toCount
  ++ " @@" ++ nl ++ String.concat "" (map formatLine h.(Lines)).

(** Modelled from the spec: [Unified.Format], by which [fmt.Sprint] prints
    a unified diff: nothing when there is no hunk, else the two label
    lines and the hunks. *)
Definition Format (u : Unified) : string :=
  match u.(Hunks) with
  | [] => ""
  | hunks =>
      "--- " ++ u.(From) ++ nl ++ "+++ " ++ u.(To) ++ nl
      ++ String.concat "" (map formatHunk hunks)
  end.

End unified.

(** The libraries of [Output] with the text-diff library as above, for any
    serializer and any of the parameters left open. *)
Definition textDiff
    (marshalIndent : value -> string -> string -> string * error)
    (uriFromPath : string -> span.URI)
    (lineSpan : span.URI -> Z -> Z -> span.Span)
    (hunksOf : string -> string -> list gotextdiff.TextEdit -> list gotextdiff.Hunk)
  : Libraries :=
  {| MarshalIndent := marshalIndent;
     URIFromPath := uriFromPath;
     ComputeEdits := myers.ComputeEdits lineSpan;
     ToUnified := unified.ToUnified hunksOf;
     Sprint := unified.Format |}.

(** The parameters left open, filled in for runs on sample records. *)
Definition sampleSpan (uri : span.URI) (from to : Z) : span.Span :=
  {| span.uri := uri;
     span.Start := {| span.Line := from; span.Column := 1; span.Offset := 0 |};
     span.Finish := {| span.Line := to; span.Column := 1; span.Offset := 0 |} |}.

Definition sampleHunks (from content : string) (edits : list gotextdiff.TextEdit)
  : list gotextdiff.Hunk :=
  gotextdiff.Hunks (Sample.toUnified from "" content edits).

Definition sampleTextDiff : Libraries :=
  textDiff Sample.marshalIndent (fun path => "file:///" ++ path) sampleSpan sampleHunks.

(** * Properties *)

(** ** Text and names *)

Lemma newlines_app (a b : string) :
  newlines (a ++ b) = newlines a + newlines b.
Proof.
  induction a as [|c a IH]; simpl.
  - reflexivity.
  - rewrite IH. lia.
Qed.

Lemma append_empty_r (s : string) : s ++ "" = s.
Proof. induction s as [|c s IH]; simpl; [reflexivity | now rewrite IH]. Qed.

Lemma quote_app (s t : string) : quote s ++ t = dquote ++ s ++ dquote ++ t.
Proof.
  unfold quote, dquote. simpl. f_equal.
  induction s as [|c s IH]; simpl; [reflexivity | now rewrite IH].
Qed.

(** On a value that carries a name, [getName] returns it. *)
Lemma getName_NameField (v : value) (name : string) :
  NameField v = Some name -> getName "Name" v = Returns name.
Proof.
  unfold NameField, getName.
  destruct v as [| | | | |ty fields|elem [[| | | | |ty fields|]|]];
    try discriminate; simpl;
    destruct (reflect.lookup "Name" fields) as [[]|]; try discriminate;
    intros [= ->]; reflexivity.
Qed.

Lemma Cause_Wrap (e : err) (message : string) :
  option_map errors.Cause (errors.Wrap (Some e) message) = Some (errors.Cause e).
Proof. reflexivity. Qed.

(** ** Description *)

Section OutputFacts.

Context `{Libraries}.

Lemma Output_Create (e : Event) :
  e.(Option) = CreateOption ->
  Output e =
  obind (getName "Name" e.(Value)) (fun name =>
    Returns ("creating " ++ e.(resource_type) ++ ": " ++ quote name, None)).
Proof. intros Ho. unfold Output. rewrite Ho. reflexivity. Qed.

Lemma Output_Delete (e : Event) :
  e.(Option) = DeleteOption ->
  Output e =
  obind (getName "Name" e.(OldValue)) (fun name =>
    Returns ("deleting " ++ e.(resource_type) ++ ": " ++ quote name, None)).
Proof. intros Ho. unfold Output. rewrite Ho. reflexivity. Qed.

Lemma Output_Update (e : Event) (remote local : string) :
  e.(Option) = UpdateOption ->
  MarshalIndent e.(OldValue) "" tab = (remote, None) ->
  MarshalIndent e.(Value) "" tab = (local, None) ->
  Output e =
  obind (getName "Name" e.(Value)) (fun name =>
    Returns ("updating " ++ e.(resource_type) ++ ": " ++ quote name ++ nl
             ++ Sprint (ToUnified "remote" "local" (remote ++ nl)
                          (ComputeEdits (URIFromPath "remote") (remote ++ nl) (local ++ nl))),
             None)).
Proof.
  intros Ho Hr Hl. unfold Output.
  rewrite Ho. change (Z.eqb UpdateOption CreateOption) with false.
  change (Z.eqb UpdateOption DeleteOption) with false.
  rewrite Z.eqb_refl, Hr, Hl.
  destruct (getName "Name" e.(Value)) as [name|msg]; [|reflexivity].
  unfold obind. rewrite quote_app. simpl. rewrite append_empty_r. reflexivity.
Qed.

(** An [obind] on [getName] returns no error. *)
Lemma line_no_error (v : value) (f : string -> string) (text : string) (failure : error) :
  obind (getName "Name" v) (fun name => Returns (f name, None)) = Returns (text, failure) ->
  failure = None.
Proof.
  destruct (getName "Name" v); simpl; [intros [= _ <-]; reflexivity | discriminate].
Qed.

(** C5.  Describing a Create record whose new value carries a Name
    returns, with no error, exactly the text [creating <kind>: "<name>"].
    The text has the line feeds of the kind and of the name and no other:
    it is a single line exactly when neither holds a line feed. *)
Theorem Output_create_line (e : Event) (name : string) :
  e.(Option) = CreateOption ->
  NameField e.(Value) = Some name ->
  Output e =
    Returns ("creating " ++ e.(resource_type) ++ ": " ++ quote name, None)
  /\ newlines ("creating " ++ e.(resource_type) ++ ": " ++ quote name)
     = newlines e.(resource_type) + newlines name
  /\ (newlines ("creating " ++ e.(resource_type) ++ ": " ++ quote name) = 0
      <-> newlines e.(resource_type) = 0 /\ newlines name = 0).
Proof.
  intros Ho Hn.
  assert (Hlines : newlines ("creating " ++ e.(resource_type) ++ ": " ++ quote name)
                   = newlines e.(resource_type) + newlines name).
  { unfold quote. rewrite !newlines_app. simpl. lia. }
  split; [|split].
  - rewrite (Output_Create e Ho), (getName_NameField _ Hn). reflexivity.
  - exact Hlines.
  - rewrite Hlines. lia.
Qed.

(** C6.  Describing a Delete record returns, with no error, the line
    [deleting <kind>: "<name>"], [<name>] being the Name carried by the old
    value. *)
Theorem Output_delete_line (e : Event) (name : string) :
  e.(Option) = DeleteOption ->
  NameField e.(OldValue) = Some name ->
  Output e =
    Returns ("deleting " ++ e.(resource_type) ++ ": " ++ quote name, None).
Proof.
  intros Ho Hn.
  rewrite (Output_Delete e Ho), (getName_NameField _ Hn). reflexivity.
Qed.

(** C10.  A record whose option is none of Create, Delete and Update is
    described by the empty string, with no error. *)
Theorem Output_other_option (e : Event) :
  e.(Option) <> CreateOption ->
  e.(Option) <> DeleteOption ->
  e.(Option) <> UpdateOption ->
  Output e = Returns ("", None).
Proof.
  intros Hc Hd Hu. unfold Output.
  apply Z.eqb_neq in Hc, Hd, Hu. rewrite Hc, Hd, Hu. reflexivity.
Qed.

(** C7.  Describing an Update record whose two values serialize: both
    are serialized with a tab as indentation and ended by a line
    feed, the edits from the old text to the new one are computed,
    rendered as a unified diff of the old text labelled [remote] and
    [local], and the message is [updating <kind>: "<name>"], [<name>] being
    the Name carried by the new value, a line feed, and the diff. *)
Theorem Output_update_diff (e : Event) (remote local name : string) :
  e.(Option) = UpdateOption ->
  MarshalIndent e.(OldValue) "" tab = (remote, None) ->
  MarshalIndent e.(Value) "" tab = (local, None) ->
  NameField e.(Value) = Some name ->
  Output e =
    Returns ("updating " ++ e.(resource_type) ++ ": " ++ quote name ++ nl
             ++ Sprint (ToUnified "remote" "local" (remote ++ nl)
                          (ComputeEdits (URIFromPath "remote") (remote ++ nl) (local ++ nl))),
             None).
Proof.
  intros Ho Hr Hl Hn.
  rewrite (Output_Update e Ho Hr Hl), (getName_NameField _ Hn). reflexivity.
Qed.

(** C8.  Describing a record returns an error in one case only: the
    record is an Update and serializing its old value failed, or
    serializing its old value succeeded and serializing its new value
    failed.  The error returned is then the serializer's own and the
    text is empty.  Hence describing a Create or a Delete record
    never returns an error. *)
Theorem Output_error_iff (e : Event) (text : string) (failure : err) :
  Output e = Returns (text, Some failure) <->
  e.(Option) = UpdateOption /\ text = "" /\
  (snd (MarshalIndent e.(OldValue) "" tab) = Some failure \/
   (snd (MarshalIndent e.(OldValue) "" tab) = None /\
    snd (MarshalIndent e.(Value) "" tab) = Some failure)).
Proof.
  unfold Output.
  destruct (Z.eqb_spec e.(Option) CreateOption) as [Hc|Hc].
  { split.
    - intros Hout. apply line_no_error with (f := fun name => _) in Hout. discriminate.
    - intros [Hu _]. rewrite Hc in Hu. discriminate. }
  destruct (Z.eqb_spec e.(Option) DeleteOption) as [Hd|Hd].
  { split.
    - intros Hout. apply line_no_error with (f := fun name => _) in Hout. discriminate.
    - intros [Hu _]. rewrite Hd in Hu. discriminate. }
  destruct (Z.eqb_spec e.(Option) UpdateOption) as [Hu|Hu].
  2: { split; [discriminate | intros [Hu' _]; contradiction]. }
  destruct (MarshalIndent e.(OldValue) "" tab) as [remote [fr|]]; simpl.
  { split.
    - intros [= <- <-]. auto.
    - intros (_ & -> & [[= ->] | [[=] _]]). reflexivity. }
  destruct (MarshalIndent e.(Value) "" tab) as [local [fl|]]; simpl.
  { split.
    - intros [= <- <-]. auto.
    - intros (_ & -> & [[=] | [_ [= ->]]]). reflexivity. }
  split.
  - intros Hout. apply line_no_error with (f := fun name => _) in Hout. discriminate.
  - intros (_ & _ & [[=] | [_ [=]]]).
Qed.

End OutputFacts.

(** ** The diff of a text with itself *)

Lemma slide_same (a : list string) (fuel i : nat) :
  i <= length a -> length a - i <= fuel ->
  myers.slide a a fuel (Z.of_nat i) (Z.of_nat i)
  = (Z.of_nat (length a), Z.of_nat (length a)).
Proof.
  revert i. induction fuel as [|fuel IH]; intros i Hi Hf.
  - assert (i = length a) by lia. subst i. reflexivity.
  - cbn [myers.slide].
    destruct (Z.ltb_spec (Z.of_nat i) (Z.of_nat (length a))) as [Hlt|Hge].
    + rewrite String.eqb_refl. cbn [andb].
      replace (Z.of_nat i + 1)%Z with (Z.of_nat (S i)) by lia.
      apply IH; lia.
    + assert (i = length a) by lia. subst i. reflexivity.
Qed.

(** At depth 0 the search slides down the whole diagonal and stops. *)
Lemma diagonals_same (a : list string) (offset : Z) (V : list Z) :
  myers.at_ V (0 + 1 + offset) = 0%Z ->
  myers.diagonals a a offset 0 1 0 V
  = (myers.put V (0 + offset) (Z.of_nat (length a)), true).
Proof.
  intros Hv. cbn [myers.diagonals].
  change (Z.leb 0 0) with true. cbn iota.
  unfold myers.down. change (Z.eqb 0 (- 0)) with true. cbn [orb].
  rewrite Hv. change (0 - 0)%Z with 0%Z.
  pose proof (@slide_same a (length a) 0) as Hs.
  change (Z.of_nat 0) with 0%Z in Hs. rewrite Hs by lia.
  rewrite Z.eqb_refl. reflexivity.
Qed.

Lemma shortestEditSequence_same (a : list string) :
  exists V : list Z,
    myers.shortestEditSequence a a
    = (V :: repeat [] (length a + length a), Z.of_nat (length a + length a)).
Proof.
  unfold myers.shortestEditSequence.
  rewrite (Nat.add_1_r (length a + length a)).
  cbn [myers.depths].
  change (Z.to_nat 0) with 0%nat. change (- 0)%Z with 0%Z.
  rewrite diagonals_same.
  - eexists. cbn [repeat]. reflexivity.
  - unfold myers.at_. apply nth_repeat.
Qed.

(** The way back passes the depths that left no trace. *)
Lemma back_skip (V : list Z) (k j fuel : nat) (offset x y : Z)
    (snakes : list (list Z)) :
  j <= fuel -> (0 < x)%Z -> (0 < y)%Z ->
  myers.back (V :: repeat [] k) offset fuel x y (Z.of_nat j) snakes
  = (x, y, 0%Z, snakes).
Proof.
  intros Hf Hx Hy. revert fuel Hf.
  induction j as [|j IH]; intros fuel Hf.
  - destruct fuel as [|fuel]; [reflexivity|].
    cbn [myers.back]. change (Z.ltb 0 (Z.of_nat 0)) with false.
    rewrite andb_false_r. reflexivity.
  - destruct fuel as [|fuel]; [lia|].
    cbn [myers.back].
    destruct (Z.ltb_spec 0 x) as [_|]; [|lia].
    destruct (Z.ltb_spec 0 y) as [_|]; [|lia].
    destruct (Z.ltb_spec 0 (Z.of_nat (S j))) as [_|]; [|lia].
    cbn [andb]. rewrite Nat2Z.id. cbn [nth]. rewrite nth_repeat.
    replace (Z.of_nat (S j) - 1)%Z with (Z.of_nat j) by lia.
    apply IH. lia.
Qed.

Lemma backtrack_same (V : list Z) (k : nat) (offset m : Z) :
  (0 < m)%Z ->
  myers.backtrack (V :: repeat [] k) m m offset = [m; m] :: repeat [] k.
Proof.
  intros Hm. unfold myers.backtrack.
  cbn [length]. rewrite repeat_length.
  replace (Z.of_nat (S k) - 1)%Z with (Z.of_nat k) by lia.
  rewrite back_skip by lia.
  destruct (Z.ltb_spec m 0) as [|_]; [lia|]. reflexivity.
Qed.

(** One snake down the whole diagonal holds no deletion and no
    insertion. *)
Lemma follow_same (a : list string) (rest : list (list Z)) :
  myers.follow a a ([Z.of_nat (length a); Z.of_nat (length a)] :: rest) 0 0 [] = [].
Proof.
  cbn [myers.follow]. cbv zeta. rewrite Z.sub_diag.
  change (Z.to_nat (0 - (0 - 0))) with 0%nat.
  cbn [myers.deletions myers.add].
  change (Z.to_nat (0 - 0 - 0)) with 0%nat.
  cbn [myers.insertions myers.add].
  replace (0 + Z.max 0 (Z.of_nat (length a) - 0))%Z with (Z.of_nat (length a)) by lia.
  rewrite Z.leb_refl. reflexivity.
Qed.

(** Myers' algorithm finds no operation from lines to themselves. *)
Lemma operations_same (a : list string) : myers.operations a a = [].
Proof.
  destruct a as [|l a]; [reflexivity|].
  unfold myers.operations.
  destruct (shortestEditSequence_same (l :: a)) as [V ->].
  rewrite backtrack_same by (cbn [length]; lia).
  apply follow_same.
Qed.

Lemma ComputeEdits_same (lineSpan : span.URI -> Z -> Z -> span.Span)
    (uri : span.URI) (text : string) :
  myers.ComputeEdits lineSpan uri text text = [].
Proof. unfold myers.ComputeEdits. rewrite operations_same. reflexivity. Qed.

(** C4.  Describing an Update record whose old and new values are equal,
    with the text-diff library modelled above and any serializer: the
    diff of the one text with itself has no edit, its unified diff has no
    hunk, hence no hunk line, and the description is the line
    [updating <kind>: "<name>"], [<name>] being the Name carried by the new
    value, and nothing after it. *)
Theorem Output_update_unchanged
    (marshalIndent : value -> string -> string -> string * error)
    (uriFromPath : string -> span.URI)
    (lineSpan : span.URI -> Z -> Z -> span.Span)
    (hunksOf : string -> string -> list gotextdiff.TextEdit -> list gotextdiff.Hunk)
    (e : Event) (text name : string) :
  e.(Option) = UpdateOption ->
  e.(OldValue) = e.(Value) ->
  marshalIndent e.(Value) "" tab = (text, None) ->
  NameField e.(Value) = Some name ->
  myers.ComputeEdits lineSpan (uriFromPath "remote") (text ++ nl) (text ++ nl) = [] /\
  gotextdiff.Hunks
    (unified.ToUnified hunksOf "remote" "local" (text ++ nl)
       (myers.ComputeEdits lineSpan (uriFromPath "remote") (text ++ nl) (text ++ nl)))
  = [] /\
  @Output (textDiff marshalIndent uriFromPath lineSpan hunksOf) e =
    Returns ("updating " ++ e.(resource_type) ++ ": " ++ quote name ++ nl, None).
Proof.
  intros Ho Heq Hm Hn.
  assert (Hold : marshalIndent e.(OldValue) "" tab = (text, None))
    by (rewrite Heq; exact Hm).
  rewrite ComputeEdits_same. repeat split.
  rewrite (@Output_Update (textDiff marshalIndent uriFromPath lineSpan hunksOf)
             e text text Ho Hold Hm), (getName_NameField _ Hn).
  cbn [obind Sprint ToUnified ComputeEdits URIFromPath textDiff].
  rewrite ComputeEdits_same. reflexivity.
Qed.

(** ** Application *)

Lemma Apply_service (e : Event) :
  e.(resource_type) = ServiceResourceType ->
  Apply e = applyService e.(Option) e.(Value).
Proof. intros Hk. unfold Apply. rewrite Hk. reflexivity. Qed.

Lemma Apply_route (e : Event) :
  e.(resource_type) = RouteResourceType ->
  Apply e = applyRoute e.(Option) e.(Value).
Proof. intros Hk. unfold Apply. rewrite Hk. reflexivity. Qed.

(** A run of one call. *)
Lemma run_wrappedCall {W} (cluster : Cluster W) (c : Call) (message : string) (w : W) :
  run cluster (wrappedCall c message) w =
  (Returns (errors.Wrap (replyError c (fst (cluster c w))) message),
   snd (cluster c w), [c]).
Proof. simpl. destruct (cluster c w). reflexivity. Qed.

Lemma run_bareCall {W} (cluster : Cluster W) (c : Call) (w : W) :
  run cluster (bareCall c) w =
  (Returns (replyError c (fst (cluster c w))), snd (cluster c w), [c]).
Proof. simpl. destruct (cluster c w). reflexivity. Qed.

(** The type assertion passes exactly on the values of that type. *)
Lemma assertType_Ret (T : string) (v : value) :
  typeOf v = Some T -> assertType T v = Ret v.
Proof. intros Ht. unfold assertType. rewrite Ht, String.eqb_refl. reflexivity. Qed.

(** What [applyRoute] does, case by case: every call's error is wrapped. *)
Lemma applyRoute_create (v : value) :
  typeOf v = Some "*types.Route" ->
  applyRoute CreateOption v = wrappedCall (Create Route v) "failed to apply route".
Proof. intros Ht. unfold applyRoute. simpl. rewrite (assertType_Ret _ Ht). reflexivity. Qed.

Lemma applyRoute_delete (v : value) (name : string) :
  getName "Name" v = Returns name ->
  applyRoute DeleteOption v = wrappedCall (Delete Route name) "failed to apply route".
Proof. intros Hn. unfold applyRoute. simpl. rewrite Hn. reflexivity. Qed.

Lemma applyRoute_update (v : value) :
  typeOf v = Some "*types.Route" ->
  applyRoute UpdateOption v = wrappedCall (Update Route v) "failed to apply route".
Proof. intros Ht. unfold applyRoute. simpl. rewrite (assertType_Ret _ Ht). reflexivity. Qed.

(** What [applyService] does, case by case: the error of Create and of
    Delete is wrapped, the error of Update is not. *)
Lemma applyService_create (v : value) :
  typeOf v = Some "*types.Service" ->
  applyService CreateOption v = wrappedCall (Create Service v) "failed to apply service".
Proof. intros Ht. unfold applyService. simpl. rewrite (assertType_Ret _ Ht). reflexivity. Qed.

Lemma applyService_delete (v : value) (name : string) :
  getName "Name" v = Returns name ->
  applyService DeleteOption v = wrappedCall (Delete Service name) "failed to apply service".
Proof. intros Hn. unfold applyService. simpl. rewrite Hn. reflexivity. Qed.

Lemma applyService_update (v : value) :
  typeOf v = Some "*types.Service" ->
  applyService UpdateOption v = bareCall (Update Service v).
Proof. intros Ht. unfold applyService. simpl. rewrite (assertType_Ret _ Ht). reflexivity. Qed.

(** A wrapped error is never the error it wraps. *)
Lemma Wrapped_neq (e : err) (message : string) : Wrapped e message <> e.
Proof.
  induction e as [msg | cause IH message']; intros Heq.
  - discriminate.
  - injection Heq as Hc Hm. subst message'. exact (IH Hc).
Qed.

(** A Delete is applied with the name read from the record's [Value]. *)
Lemma Apply_delete_from_Value (e : Event) (name : string) :
  e.(Option) = DeleteOption ->
  getName "Name" e.(Value) = Returns name ->
  (e.(resource_type) = ServiceResourceType ->
   Apply e = wrappedCall (Delete Service name) "failed to apply service") /\
  (e.(resource_type) = RouteResourceType ->
   Apply e = wrappedCall (Delete Route name) "failed to apply route").
Proof.
  intros Ho Hn. split; intros Hk.
  - rewrite (Apply_service e Hk), Ho. apply applyService_delete, Hn.
  - rewrite (Apply_route e Hk), Ho. apply applyRoute_delete, Hn.
Qed.

Lemma assertType_cases (T : string) (v : value) :
  assertType T v = Ret v \/ exists msg, assertType T v = Panic msg.
Proof.
  unfold assertType. destruct (typeOf v) as [t|]; [destruct (String.eqb t T)|]; eauto.
Qed.

Lemma applyRoute_shape (option : Z) (v : value) :
  shape "failed to apply route" (applyRoute option v).
Proof.
  unfold applyRoute.
  destruct (Z.eqb option CreateOption);
    [|destruct (Z.eqb option DeleteOption); [|destruct (Z.eqb option UpdateOption)]].
  - destruct (assertType_cases "*types.Route" v) as [-> | [msg ->]]; simpl.
    + apply (shape_wrapped _ (Create Route v)).
    + constructor.
  - destruct (getName "Name" v) as [name|msg]; simpl.
    + apply (shape_wrapped _ (Delete Route name)).
    + constructor.
  - destruct (assertType_cases "*types.Route" v) as [-> | [msg ->]]; simpl.
    + apply (shape_wrapped _ (Update Route v)).
    + constructor.
  - constructor.
Qed.

Lemma applyService_shape (option : Z) (v : value) :
  option <> UpdateOption ->
  shape "failed to apply service" (applyService option v).
Proof.
  intros Hu. apply Z.eqb_neq in Hu. unfold applyService. rewrite Hu.
  destruct (Z.eqb option CreateOption); [|destruct (Z.eqb option DeleteOption)].
  - destruct (assertType_cases "*types.Service" v) as [-> | [msg ->]]; simpl.
    + apply (shape_wrapped _ (Create Service v)).
    + constructor.
  - destruct (getName "Name" v) as [name|msg]; simpl.
    + apply (shape_wrapped _ (Delete Service name)).
    + constructor.
  - constructor.
Qed.

(** An error returned by a program of such a shape is the error of the
    one call it made, wrapped in the message. *)
Lemma shape_error {W} (cluster : Cluster W) (message : string) (p : prog error)
    (w w' : W) (failure : err) (calls : list Call) :
  shape message p ->
  run cluster p w = (Returns (Some failure), w', calls) ->
  exists (c : Call) (cause : err),
    calls = [c] /\
    replyError c (fst (cluster c w)) = Some cause /\
    failure = Wrapped cause message /\
    errors.Cause failure = errors.Cause cause.
Proof.
  intros [msg | | c]; try discriminate.
  rewrite run_wrappedCall.
  destruct (replyError c (fst (cluster c w))) as [cause|] eqn:Hr; simpl;
    intros [= <- <- <-].
  exists c, cause. repeat split. exact Hr.
Qed.

(** X13.  Where the error of a call is wrapped: every error [Apply]
    returns is the error of its one call wrapped in the handler's message,
    except for the Update of a service. *)
Lemma Apply_error_wrapped {W} (cluster : Cluster W) (e : Event)
    (w w' : W) (failure : err) (calls : list Call) :
  ~ (e.(resource_type) = ServiceResourceType /\ e.(Option) = UpdateOption) ->
  run cluster (Apply e) w = (Returns (Some failure), w', calls) ->
  exists (c : Call) (cause : err),
    calls = [c] /\
    replyError c (fst (cluster c w)) = Some cause /\
    failure = Wrapped cause ("failed to apply " ++ e.(resource_type)).
Proof.
  intros Hnot Hrun. unfold Apply in Hrun.
  destruct (String.eqb_spec e.(resource_type) ServiceResourceType) as [Hs|Hs].
  - destruct (@shape_error W cluster _ _ _ _ _ _
                (applyService_shape e.(Value) (fun Hu => Hnot (conj Hs Hu))) Hrun)
      as (c & cause & Hc & Hr & Hf & _).
    rewrite Hs. eauto.
  - destruct (String.eqb_spec e.(resource_type) RouteResourceType) as [Hr'|Hr'].
    + destruct (@shape_error W cluster _ _ _ _ _ _
                  (applyRoute_shape e.(Option) e.(Value)) Hrun)
        as (c & cause & Hc & Hr & Hf & _).
      rewrite Hr'. eauto.
    + discriminate.
Qed.

(** C3.  Applying a record whose kind is neither service nor route
    returns no error and calls no sub-client: run against any cluster, it
    returns nil, leaves the cluster as it was and makes no call. *)
Theorem Apply_unknown_kind (e : Event) :
  e.(resource_type) <> ServiceResourceType ->
  e.(resource_type) <> RouteResourceType ->
  Apply e = Ret None /\
  forall (W : Type) (cluster : Cluster W) (w : W),
    run cluster (Apply e) w = (Returns None, w, []).
Proof.
  intros Hs Hr.
  assert (Hret : Apply e = Ret None).
  { unfold Apply. apply String.eqb_neq in Hs, Hr. rewrite Hs, Hr. reflexivity. }
  split; [exact Hret | intros W cluster w; rewrite Hret; reflexivity].
Qed.

(** C9.  Applying never reads the old value: two records with the same
    kind, option and new value are applied by the same program, so that
    against any cluster they make the same calls with the same arguments,
    leave it in the same state and return the same result. *)
Theorem Apply_ignores_OldValue (e1 e2 : Event) :
  e1.(resource_type) = e2.(resource_type) ->
  e1.(Option) = e2.(Option) ->
  e1.(Value) = e2.(Value) ->
  Apply e1 = Apply e2 /\
  forall (W : Type) (cluster : Cluster W) (w : W),
    run cluster (Apply e1) w = run cluster (Apply e2) w.
Proof.
  intros Hk Ho Hv.
  assert (Heq : Apply e1 = Apply e2).
  { unfold Apply. rewrite Hk, Ho, Hv. reflexivity. }
  split; [exact Heq | intros W cluster w; rewrite Heq; reflexivity].
Qed.

(** C1.  The name a Delete is applied with is read from the new value,
    not from the old one as the description reads it.  A Delete record
    with an old value only panics in [getName] before any call; one with
    two values deletes the service named by the new value, [svc-b], while
    [Output] describes it as the deletion of [svc-a]. *)
Theorem Apply_delete_reads_Value :
  Apply Sample.deleteOld
    = Panic (reflect.ValueError "reflect.Value.FieldByName" reflect.Invalid)
  /\ run Sample.accepting (Apply Sample.deleteBoth) tt
    = (Returns None, tt, [Delete Service "svc-b"])
  /\ @Output Sample.libraries Sample.deleteBoth
    = Returns ("deleting service: " ++ quote "svc-a", None).
Proof. repeat split. Qed.

(** C2.  The error of a failed service Update is returned as the
    sub-client gave it, without the message [failed to apply service];
    the same failure of a route Update is returned wrapped. *)
Theorem applyService_update_not_wrapped :
  run (Sample.refusing (Err "boom")) (Apply Sample.updateService) tt
    = (Returns (Some (Err "boom")), tt, [Update Service (Sample.service "1" "svc-b")])
  /\ Some (Err "boom") <> errors.Wrap (Some (Err "boom")) "failed to apply service"
  /\ run (Sample.refusing (Err "boom")) (Apply Sample.updateRoute) tt
    = (Returns (errors.Wrap (Some (Err "boom")) "failed to apply route"), tt,
       [Update Route (Sample.route "1" "r1" "2")]).
Proof. repeat split. discriminate. Qed.

(** ** The properties at sample records *)

(** A service to create is described in one line. *)
Lemma Output_create_line_witness :
  @Output Sample.libraries Sample.createService
    = Returns ("creating service: " ++ quote "svc-a", None)
  /\ newlines ("creating service: " ++ quote "svc-a") = 0
  /\ (newlines ("creating service: " ++ quote "svc-a") = 0
      <-> newlines "service" = 0 /\ newlines "svc-a" = 0).
Proof.
  exact (@Output_create_line Sample.libraries Sample.createService "svc-a" eq_refl eq_refl).
Defined.

(** A service whose name holds a line feed is described in two lines. *)
Lemma Output_create_two_lines :
  Sample.createTwoLines.(Option) = CreateOption
  /\ NameField Sample.createTwoLines.(Value) = Some ("a" ++ nl ++ "b")
  /\ @Output Sample.libraries Sample.createTwoLines
     = Returns ("creating service: " ++ quote ("a" ++ nl ++ "b"), None)
  /\ newlines ("creating service: " ++ quote ("a" ++ nl ++ "b")) = 1.
Proof. repeat split. Qed.

(** A service to delete is described by the name of its old value. *)
Lemma Output_delete_line_witness :
  @Output Sample.libraries Sample.deleteOld
    = Returns ("deleting service: " ++ quote "svc-a", None).
Proof.
  exact (@Output_delete_line Sample.libraries Sample.deleteOld "svc-a" eq_refl eq_refl).
Defined.

(** Option 7 is described by the empty string. *)
Lemma Output_other_option_witness :
  @Output Sample.libraries Sample.otherOption = Returns ("", None).
Proof.
  apply (@Output_other_option Sample.libraries Sample.otherOption); discriminate.
Defined.

(** A route whose upstream changes from 1 to 2: the header, then the
    unified diff with the one changed line. *)
Lemma Output_update_diff_witness :
  @Output Sample.libraries Sample.updateRoute
  = Returns
      ("updating route: " ++ quote "r1" ++ nl ++
       "--- remote" ++ nl ++
       "+++ local" ++ nl ++
       "@@ -1,5 +1,5 @@" ++ nl ++
       " {" ++ nl ++
       " " ++ tab ++ quote "ID" ++ ": " ++ quote "1" ++ "," ++ nl ++
       " " ++ tab ++ quote "Name" ++ ": " ++ quote "r1" ++ "," ++ nl ++
       "-" ++ tab ++ quote "UpstreamID" ++ ": " ++ quote "1" ++ nl ++
       "+" ++ tab ++ quote "UpstreamID" ++ ": " ++ quote "2" ++ nl ++
       " }" ++ nl, None).
Proof.
  exact (@Output_update_diff Sample.libraries Sample.updateRoute
           (fst (Sample.marshalIndent (Sample.route "1" "r1" "1") "" tab))
           (fst (Sample.marshalIndent (Sample.route "1" "r1" "2") "" tab))
           "r1" eq_refl eq_refl eq_refl eq_refl).
Defined.

(** An old value with no encoding: the serializer's error, and no text. *)
Lemma Output_error_iff_witness :
  @Output Sample.libraries Sample.updateChan
    = Returns ("", Some (Err "json: unsupported type: chan int")).
Proof.
  apply (proj2 (@Output_error_iff Sample.libraries Sample.updateChan ""
                  (Err "json: unsupported type: chan int"))).
  split; [reflexivity | split; [reflexivity | left; reflexivity]].
Defined.

(** An unchanged route: the header line and nothing after it. *)
Lemma Output_update_unchanged_witness :
  @Output sampleTextDiff Sample.unchangedRoute
  = Returns ("updating route: " ++ quote "r1" ++ nl, None).
Proof.
  exact (proj2 (proj2
    (@Output_update_unchanged Sample.marshalIndent (fun path => "file:///" ++ path)
       sampleSpan sampleHunks Sample.unchangedRoute
       (fst (Sample.marshalIndent (Sample.route "1" "r1" "1") "" tab))
       "r1" eq_refl eq_refl eq_refl eq_refl))).
Defined.

(** A record of kind [upstream] is applied by doing nothing. *)
Lemma Apply_unknown_kind_witness :
  Apply Sample.createUpstream = Ret None /\
  forall (W : Type) (cluster : Cluster W) (w : W),
    run cluster (Apply Sample.createUpstream) w = (Returns None, w, []).
Proof.
  apply (Apply_unknown_kind Sample.createUpstream); discriminate.
Defined.

(** Dropping the old value of a Delete record changes nothing in its
    application. *)
Lemma Apply_ignores_OldValue_witness :
  Apply Sample.deleteBoth
    = Apply {| resource_type := ServiceResourceType; Option := DeleteOption;
               OldValue := VNil; Value := Sample.service "2" "svc-b" |}
  /\ forall (W : Type) (cluster : Cluster W) (w : W),
       run cluster (Apply Sample.deleteBoth) w
       = run cluster
           (Apply {| resource_type := ServiceResourceType; Option := DeleteOption;
                     OldValue := VNil; Value := Sample.service "2" "svc-b" |}) w.
Proof.
  apply (Apply_ignores_OldValue Sample.deleteBoth
           {| resource_type := ServiceResourceType; Option := DeleteOption;
              OldValue := VNil; Value := Sample.service "2" "svc-b" |});
    reflexivity.
Defined.

(** * Further properties of [Apply] *)

(** ** What an application can be *)

Lemma subClientOf_Service (kind : ResourceType) :
  subClientOf kind = Some Service <-> kind = ServiceResourceType.
Proof.
  unfold subClientOf.
  destruct (String.eqb_spec kind ServiceResourceType) as [Hs|Hs].
  - tauto.
  - destruct (String.eqb kind RouteResourceType); split; intros Hk;
      try discriminate; contradiction.
Qed.

Lemma subClientOf_Route (kind : ResourceType) :
  subClientOf kind = Some Route <-> kind = RouteResourceType.
Proof.
  unfold subClientOf.
  destruct (String.eqb_spec kind ServiceResourceType) as [Hs|Hs].
  - split; [discriminate | intros Hr; rewrite Hr in Hs; discriminate].
  - destruct (String.eqb_spec kind RouteResourceType); split; intros Hk;
      try discriminate; try contradiction; trivial.
Qed.

Lemma Apply_subClient (e : Event) (k : SubClient) :
  subClientOf e.(resource_type) = Some k ->
  Apply e = match k with
            | Service => applyService e.(Option) e.(Value)
            | Route => applyRoute e.(Option) e.(Value)
            end.
Proof.
  destruct k; intros Hk.
  - apply Apply_service, subClientOf_Service, Hk.
  - apply Apply_route, subClientOf_Route, Hk.
Qed.

Lemma applyService_update_cases (v : value) :
  (exists msg, applyService UpdateOption v = Panic msg) \/
  applyService UpdateOption v = bareCall (Update Service v).
Proof.
  unfold applyService. simpl.
  destruct (assertType_cases "*types.Service" v) as [-> | [msg ->]]; simpl; eauto.
Qed.

(** An application is a panic, nothing at all, or one call, whose error it
    returns wrapped or, for one handler, as it is. *)
Lemma Apply_cases (e : Event) :
  (exists msg, Apply e = Panic msg) \/
  Apply e = Ret None \/
  (exists (c : Call) (message : string), Apply e = wrappedCall c message) \/
  (exists c : Call, Apply e = bareCall c).
Proof.
  assert (Hshape : forall message p, shape message p ->
            (exists msg, p = Panic msg) \/ p = Ret None \/
            (exists c m, p = wrappedCall c m) \/ (exists c, p = bareCall c)).
  { intros message p [msg| |c]; eauto 6. }
  unfold Apply.
  destruct (String.eqb e.(resource_type) ServiceResourceType).
  - destruct (Z.eq_dec e.(Option) UpdateOption) as [Hu|Hu].
    + rewrite Hu. destruct (applyService_update_cases e.(Value)) as [Hp | Hb]; eauto 6.
    + exact (Hshape _ _ (applyService_shape e.(Value) Hu)).
  - destruct (String.eqb e.(resource_type) RouteResourceType).
    + exact (Hshape _ _ (applyRoute_shape e.(Option) e.(Value))).
    + auto.
Qed.

(** X1.  Applying a record makes at most one call to the cluster,
    whatever the record and whatever the cluster answers. *)
Theorem Apply_at_most_one_call (e : Event) (W : Type) (cluster : Cluster W) (w : W) :
  length (snd (run cluster (Apply e) w)) <= 1.
Proof.
  destruct (Apply_cases e) as [[msg ->] | [-> | [(c & m & ->) | [c ->]]]].
  - simpl. lia.
  - simpl. lia.
  - rewrite run_wrappedCall. simpl. lia.
  - rewrite run_bareCall. simpl. lia.
Qed.

(** X2.  When applying a record panics, the panic comes before any call:
    no call has been made and the cluster is in the state it was in. *)
Theorem Apply_panic_before_call (e : Event) (W : Type) (cluster : Cluster W)
    (w w' : W) (msg : string) (calls : list Call) :
  run cluster (Apply e) w = (Panics msg, w', calls) ->
  calls = [] /\ w' = w.
Proof.
  destruct (Apply_cases e) as [[m ->] | [-> | [(c & m & ->) | [c ->]]]].
  - simpl. intros [= _ <- <-]. auto.
  - simpl. discriminate.
  - rewrite run_wrappedCall. discriminate.
  - rewrite run_bareCall. discriminate.
Qed.

(** X3.  Applying a record returns nil exactly when no call it made
    returned an error: a success is never turned into an error, and an
    error is never swallowed. *)
Theorem Apply_nil_iff (e : Event) (W : Type) (cluster : Cluster W)
    (w w' : W) (res : error) (calls : list Call) :
  run cluster (Apply e) w = (Returns res, w', calls) ->
  (res = None <->
   forall c : Call, In c calls -> replyError c (fst (cluster c w)) = None).
Proof.
  destruct (Apply_cases e) as [[m ->] | [-> | [(c & m & ->) | [c ->]]]].
  - simpl. discriminate.
  - simpl. intros [= <- _ <-]. split; [intros _ c [] | reflexivity].
  - rewrite run_wrappedCall. intros [= <- _ <-]. split.
    + intros Hw c' [<- | []].
      destruct (replyError c (fst (cluster c w))); [discriminate | reflexivity].
    + intros Hall. rewrite (Hall c (or_introl eq_refl)). reflexivity.
  - rewrite run_bareCall. intros [= <- _ <-]. split.
    + intros Hb c' [<- | []]. exact Hb.
    + intros Hall. exact (Hall c (or_introl eq_refl)).
Qed.

(** X4.  An error returned by applying a record has the cause of the
    error its one call returned, wrapped or not. *)
Theorem Apply_cause_preserved (e : Event) (W : Type) (cluster : Cluster W)
    (w w' : W) (failure : err) (calls : list Call) :
  run cluster (Apply e) w = (Returns (Some failure), w', calls) ->
  exists (c : Call) (cause : err),
    calls = [c] /\
    w' = snd (cluster c w) /\
    replyError c (fst (cluster c w)) = Some cause /\
    errors.Cause failure = errors.Cause cause.
Proof.
  destruct (Apply_cases e) as [[m ->] | [-> | [(c & m & ->) | [c ->]]]].
  - simpl. discriminate.
  - simpl. discriminate.
  - rewrite run_wrappedCall.
    destruct (replyError c (fst (cluster c w))) as [cause|] eqn:Hr; simpl;
      intros [= <- <- <-].
    exists c, cause. auto.
  - rewrite run_bareCall. intros [= Hr <- <-].
    exists c, failure. auto.
Qed.

(** ** What each option calls *)

(** X5.  Applying a Create record of a known kind whose value has the
    handler's type makes exactly one call, the Create of the matching
    sub-client with the record's value, and returns that call's error
    wrapped in the handler's message (nil when the call succeeds). *)
Theorem Apply_create_call (e : Event) (k : SubClient) (W : Type)
    (cluster : Cluster W) (w : W) :
  subClientOf e.(resource_type) = Some k ->
  e.(Option) = CreateOption ->
  typeOf e.(Value) = Some (pointerType k) ->
  run cluster (Apply e) w =
  (Returns (errors.Wrap (replyError (Create k e.(Value)) (fst (cluster (Create k e.(Value)) w)))
              (failedToApply k)),
   snd (cluster (Create k e.(Value)) w),
   [Create k e.(Value)]).
Proof.
  intros Hk Ho Ht. rewrite (Apply_subClient e Hk), Ho. destruct k.
  - rewrite (applyService_create _ Ht). apply run_wrappedCall.
  - rewrite (applyRoute_create _ Ht). apply run_wrappedCall.
Qed.

(** X6.  Applying an Update record of a known kind whose value has the
    handler's type makes exactly one call, the Update of the matching
    sub-client with the record's value; for a route, the call's error is
    returned wrapped in [failed to apply route]. *)
Theorem Apply_update_call (e : Event) (k : SubClient) (W : Type)
    (cluster : Cluster W) (w : W) :
  subClientOf e.(resource_type) = Some k ->
  e.(Option) = UpdateOption ->
  typeOf e.(Value) = Some (pointerType k) ->
  snd (run cluster (Apply e) w) = [Update k e.(Value)] /\
  snd (fst (run cluster (Apply e) w)) = snd (cluster (Update k e.(Value)) w) /\
  (k = Route ->
   fst (fst (run cluster (Apply e) w)) =
   Returns (errors.Wrap
              (replyError (Update Route e.(Value)) (fst (cluster (Update Route e.(Value)) w)))
              "failed to apply route")).
Proof.
  intros Hk Ho Ht. rewrite (Apply_subClient e Hk), Ho. destruct k.
  - rewrite (applyService_update _ Ht), run_bareCall.
    repeat split. discriminate.
  - rewrite (applyRoute_update _ Ht), run_wrappedCall.
    repeat split.
Qed.

(** X7.  A Create or an Update of a known kind panics exactly when the
    dynamic type of the record's value is not the pointer type of the
    handler (a nil value included); the type is asserted before the call,
    so a value of another resource type never reaches the sub-client. *)
Theorem Apply_type_assertion (e : Event) (k : SubClient) :
  subClientOf e.(resource_type) = Some k ->
  e.(Option) = CreateOption \/ e.(Option) = UpdateOption ->
  ((exists msg, Apply e = Panic msg) <-> typeOf e.(Value) <> Some (pointerType k)).
Proof.
  intros Hk Ho. rewrite (Apply_subClient e Hk).
  assert (Hassert : forall T v,
            (exists msg, assertType T v = Panic msg) <-> typeOf v <> Some T).
  { intros T v. unfold assertType.
    destruct (typeOf v) as [t|].
    - destruct (String.eqb_spec t T) as [->|Hne]; split.
      + intros [msg Hp]. discriminate.
      + intros Hn. contradiction Hn. reflexivity.
      + intros _ [= Heq]. contradiction.
      + intros _. eexists. reflexivity.
    - split; [discriminate | intros _; eexists; reflexivity]. }
  rewrite <- Hassert.
  destruct k, Ho as [-> | ->]; unfold applyService, applyRoute, pointerType; simpl;
    (match goal with
     | |- context [assertType ?T ?v] =>
         destruct (assertType_cases T v) as [Hr | [msg Hp]]
     end;
     [ rewrite Hr; simpl; split; intros [m Hm]; discriminate
     | rewrite Hp; simpl; split; intros _; eexists; reflexivity ]).
Qed.

(** X8.  A record of a known kind whose option is none of Create, Delete
    and Update is applied by doing nothing: no call, no panic, and nil is
    returned, the wrapping of a nil error being nil. *)
Theorem Apply_other_option (e : Event) (k : SubClient) :
  subClientOf e.(resource_type) = Some k ->
  e.(Option) <> CreateOption ->
  e.(Option) <> DeleteOption ->
  e.(Option) <> UpdateOption ->
  Apply e = Ret None /\
  forall (W : Type) (cluster : Cluster W) (w : W),
    run cluster (Apply e) w = (Returns None, w, []).
Proof.
  intros Hk Hc Hd Hu.
  assert (Hret : Apply e = Ret None).
  { rewrite (Apply_subClient e Hk).
    apply Z.eqb_neq in Hc, Hd, Hu.
    destruct k; unfold applyService, applyRoute; rewrite Hc, Hd, Hu; reflexivity. }
  split; [exact Hret | intros W cluster w; rewrite Hret; reflexivity].
Qed.

(** * Further properties of [getName] and [Output] *)

Lemma getName_fieldsOf (field : string) (v : value) :
  getName field v =
  match fieldsOf v with
  | Some fields => Returns (reflect.String_ (reflect.lookup field fields))
  | None =>
      Panics (reflect.ValueError "reflect.Value.FieldByName"
                (reflect.kind
                   match v with
                   | VPtr _ target => target
                   | _ => reflect.ValueOf v
                   end))
  end.
Proof.
  destruct v as [| | | | |ty fields|elem [[| | | | |ty fields|]|]]; reflexivity.
Qed.

(** X9.  [getName] panics on every value that is neither a struct nor a
    non-nil pointer to a struct: the nil interface, a nil pointer, a
    pointer to something else, a scalar.  The panic is that of
    [FieldByName], which names the kind it was called on, [zero Value] for
    nil and for a nil pointer. *)
Theorem getName_panics_without_fields (field : string) (v : value) :
  fieldsOf v = None ->
  (exists k, getName field v = Panics (reflect.ValueError "reflect.Value.FieldByName" k)) /\
  (v = VNil \/ (exists elem, v = VPtr elem None) ->
   getName field v = Panics "reflect: call of reflect.Value.FieldByName on zero Value").
Proof.
  intros Hf. rewrite getName_fieldsOf, Hf. split.
  - eexists. reflexivity.
  - intros [-> | [elem ->]]; reflexivity.
Qed.

Section OutputMore.

Context `{Libraries}.

(** X10.  Describing a Create or a Delete record whose value is a struct
    with no field Name is no error and no panic: the name in the line is
    the text [<invalid Value>]. *)
Theorem Output_missing_name (e : Event) (fields : list (string * value)) :
  reflect.lookup "Name" fields = None ->
  (e.(Option) = CreateOption ->
   fieldsOf e.(Value) = Some fields ->
   Output e =
     Returns ("creating " ++ e.(resource_type) ++ ": " ++ quote "<invalid Value>", None)) /\
  (e.(Option) = DeleteOption ->
   fieldsOf e.(OldValue) = Some fields ->
   Output e =
     Returns ("deleting " ++ e.(resource_type) ++ ": " ++ quote "<invalid Value>", None)).
Proof.
  intros Hl. split; intros Ho Hf.
  - rewrite (Output_Create e Ho), getName_fieldsOf, Hf, Hl. reflexivity.
  - rewrite (Output_Delete e Ho), getName_fieldsOf, Hf, Hl. reflexivity.
Qed.

(** X11.  Describing a record panics when the value its line names is
    neither a struct nor a non-nil pointer to one: the new value of a
    Create, the old value of a Delete, and the new value of an Update
    whose two values serialize. *)
Theorem Output_panics_without_fields (e : Event) :
  (e.(Option) = CreateOption /\ fieldsOf e.(Value) = None) \/
  (e.(Option) = DeleteOption /\ fieldsOf e.(OldValue) = None) \/
  (e.(Option) = UpdateOption /\
   snd (MarshalIndent e.(OldValue) "" tab) = None /\
   snd (MarshalIndent e.(Value) "" tab) = None /\
   fieldsOf e.(Value) = None) ->
  exists msg, Output e = Panics msg.
Proof.
  intros [[Ho Hf] | [[Ho Hf] | (Ho & Hr & Hl & Hf)]].
  - rewrite (Output_Create e Ho), getName_fieldsOf, Hf. eexists. reflexivity.
  - rewrite (Output_Delete e Ho), getName_fieldsOf, Hf. eexists. reflexivity.
  - destruct (MarshalIndent e.(OldValue) "" tab) as [remote r] eqn:Er.
    destruct (MarshalIndent e.(Value) "" tab) as [local l] eqn:El.
    simpl in Hr, Hl. subst r l.
    rewrite (Output_Update e Ho Er El), getName_fieldsOf, Hf. eexists. reflexivity.
Qed.

(** X14.  Describing a record returns the empty text with no error
    exactly when its option is none of Create, Delete and Update: every
    description of a known option starts with its verb, and a failed one
    carries an error. *)
Theorem Output_empty_iff (e : Event) :
  Output e = Returns ("", None) <->
  e.(Option) <> CreateOption /\ e.(Option) <> DeleteOption /\ e.(Option) <> UpdateOption.
Proof.
  unfold Output.
  destruct (Z.eqb_spec e.(Option) CreateOption) as [Hc|Hc].
  { split; [|intros [Hn _]; contradiction].
    destruct (getName "Name" e.(Value)); simpl; discriminate. }
  destruct (Z.eqb_spec e.(Option) DeleteOption) as [Hd|Hd].
  { split; [|intros (_ & Hn & _); contradiction].
    destruct (getName "Name" e.(OldValue)); simpl; discriminate. }
  destruct (Z.eqb_spec e.(Option) UpdateOption) as [Hu|Hu].
  2: { split; auto. }
  split; [|intros (_ & _ & Hn); contradiction].
  destruct (MarshalIndent e.(OldValue) "" tab) as [remote [fr|]]; simpl;
    [discriminate|].
  destruct (MarshalIndent e.(Value) "" tab) as [local [fl|]]; simpl;
    [discriminate|].
  destruct (getName "Name" e.(Value)); simpl; discriminate.
Qed.

End OutputMore.

(** X12.  Describing a record that is no Update uses neither the
    libraries nor the value its option does not name: with any two sets of
    libraries, two records of the same kind and option are described alike
    as soon as they agree on the new value, for a Create, or on the old
    value, for a Delete. *)
Theorem Output_line_independent (L1 L2 : Libraries) (e1 e2 : Event) :
  e1.(resource_type) = e2.(resource_type) ->
  e1.(Option) = e2.(Option) ->
  e1.(Option) <> UpdateOption ->
  (e1.(Option) = CreateOption -> e1.(Value) = e2.(Value)) ->
  (e1.(Option) = DeleteOption -> e1.(OldValue) = e2.(OldValue)) ->
  @Output L1 e1 = @Output L2 e2.
Proof.
  intros Hk Ho Hu Hc Hd. unfold Output. rewrite <- Ho, <- Hk.
  destruct (Z.eqb_spec e1.(Option) CreateOption) as [Hc'|_].
  { rewrite (Hc Hc'). reflexivity. }
  destruct (Z.eqb_spec e1.(Option) DeleteOption) as [Hd'|_].
  { rewrite (Hd Hd'). reflexivity. }
  apply Z.eqb_neq in Hu. rewrite Hu. reflexivity.
Qed.

(** ** The further properties at sample records *)

(** A route record carrying a service panics, with no call made. *)
Lemma Apply_panic_before_call_witness :
  run Sample.accepting (Apply Sample.mismatched) tt
  = (Panics "interface conversion: interface {} is *types.Service, not *types.Route",
     tt, [])
  /\ (@nil Call = [] /\ tt = tt).
Proof.
  split; [reflexivity|].
  apply (@Apply_panic_before_call Sample.mismatched unit Sample.accepting tt tt
           "interface conversion: interface {} is *types.Service, not *types.Route" []).
  reflexivity.
Defined.

(** An accepted Create returns nil. *)
Lemma Apply_nil_iff_witness :
  (@None err = None <->
   forall c : Call,
     In c [Create Service (Sample.service "1" "svc-a")] ->
     replyError c (fst (Sample.accepting c tt)) = None).
Proof.
  apply (@Apply_nil_iff Sample.createService unit Sample.accepting tt tt None
           [Create Service (Sample.service "1" "svc-a")]).
  reflexivity.
Defined.

(** A refused route Update returns an error whose cause is the refusal. *)
Lemma Apply_cause_preserved_witness :
  exists (c : Call) (cause : err),
    [Update Route (Sample.route "1" "r1" "2")] = [c] /\
    tt = snd (Sample.refusing (Err "boom") c tt) /\
    replyError c (fst (Sample.refusing (Err "boom") c tt)) = Some cause /\
    errors.Cause (Wrapped (Err "boom") "failed to apply route") = errors.Cause cause.
Proof.
  apply (@Apply_cause_preserved Sample.updateRoute unit (Sample.refusing (Err "boom")) tt).
  reflexivity.
Defined.

(** A refused route Update returns the refusal wrapped. *)
Lemma Apply_error_wrapped_witness :
  exists (c : Call) (cause : err),
    [Update Route (Sample.route "1" "r1" "2")] = [c] /\
    replyError c (fst (Sample.refusing (Err "boom") c tt)) = Some cause /\
    Wrapped (Err "boom") "failed to apply route" = Wrapped cause "failed to apply route".
Proof.
  apply (@Apply_error_wrapped unit (Sample.refusing (Err "boom")) Sample.updateRoute tt tt).
  - intros [Hk _]. discriminate.
  - reflexivity.
Defined.

(** Creating a service calls the service sub-client once. *)
Lemma Apply_create_call_witness :
  run Sample.accepting (Apply Sample.createService) tt
  = (Returns None, tt, [Create Service (Sample.service "1" "svc-a")]).
Proof.
  apply (@Apply_create_call Sample.createService Service unit Sample.accepting tt);
    reflexivity.
Defined.

(** Updating a route calls the route sub-client once; refused, the error
    comes back wrapped. *)
Lemma Apply_update_call_witness :
  snd (run (Sample.refusing (Err "boom")) (Apply Sample.updateRoute) tt)
    = [Update Route (Sample.route "1" "r1" "2")] /\
  snd (fst (run (Sample.refusing (Err "boom")) (Apply Sample.updateRoute) tt)) = tt /\
  (Route = Route ->
   fst (fst (run (Sample.refusing (Err "boom")) (Apply Sample.updateRoute) tt))
   = Returns (Some (Wrapped (Err "boom") "failed to apply route"))).
Proof.
  apply (@Apply_update_call Sample.updateRoute Route unit
           (Sample.refusing (Err "boom")) tt); reflexivity.
Defined.

(** A route record carrying a service panics, its type being another. *)
Lemma Apply_type_assertion_witness :
  (exists msg, Apply Sample.mismatched = Panic msg) <->
  Some "*types.Service" <> Some "*types.Route".
Proof.
  apply (@Apply_type_assertion Sample.mismatched Route);
    [reflexivity | left; reflexivity].
Defined.

(** A service record of option 7 is applied by doing nothing. *)
Lemma Apply_other_option_witness :
  Apply Sample.otherOption = Ret None /\
  forall (W : Type) (cluster : Cluster W) (w : W),
    run cluster (Apply Sample.otherOption) w = (Returns None, w, []).
Proof.
  apply (@Apply_other_option Sample.otherOption Service);
    [reflexivity | discriminate | discriminate | discriminate].
Defined.

(** A resource with no Name is described under the name
    [<invalid Value>]. *)
Lemma Output_missing_name_witness :
  @Output Sample.libraries Sample.createUnnamed
  = Returns ("creating upstream: " ++ quote "<invalid Value>", None).
Proof.
  exact (proj1 (@Output_missing_name Sample.libraries Sample.createUnnamed
                  [("ID", VString "1")] eq_refl) eq_refl eq_refl).
Defined.

(** The old value of a Create record is of no account in its
    description. *)
Lemma Output_line_independent_witness :
  @Output Sample.libraries Sample.createService
  = @Output Sample.libraries
      {| resource_type := ServiceResourceType; Option := CreateOption;
         OldValue := Sample.unnamed; Value := Sample.service "1" "svc-a" |}.
Proof.
  apply (@Output_line_independent Sample.libraries Sample.libraries Sample.createService
           {| resource_type := ServiceResourceType; Option := CreateOption;
              OldValue := Sample.unnamed; Value := Sample.service "1" "svc-a" |});
    [reflexivity | reflexivity | discriminate | reflexivity | discriminate].
Defined.

(** The nil interface has no field to look a name up in. *)
Lemma getName_panics_without_fields_witness :
  (exists k, getName "Name" VNil
             = Panics (reflect.ValueError "reflect.Value.FieldByName" k)) /\
  (VNil = VNil \/ (exists elem, VNil = VPtr elem None) ->
   getName "Name" VNil
   = Panics "reflect: call of reflect.Value.FieldByName on zero Value").
Proof.
  exact (@getName_panics_without_fields "Name" VNil eq_refl).
Defined.

(** Describing the creation of nothing panics. *)
Lemma Output_panics_without_fields_witness :
  exists msg, @Output Sample.libraries Sample.createNil = Panics msg.
Proof.
  apply (@Output_panics_without_fields Sample.libraries Sample.createNil).
  left. split; reflexivity.
Defined.
